(** * rouchu_python_sdk: the Modbus TCP pressure client of rouchu.py

    A shallow embedding of [rouchu.py]: Python integers are [Z] (with
    [>>] as [Z.shiftr] and [&] as [Z.land], both of which agree with
    Python on negative numbers), [bytes] objects are lists of
    [Byte.byte], strings are [string], raised exceptions are the
    [Raise] branch of [result], and the socket of the client is an
    explicit state threaded through every operation. *)

From Stdlib Require Import ZArith List String Bool Lia.
From Stdlib Require Import Init.Byte Strings.Byte.
Import ListNotations.

Open Scope string_scope.
Open Scope list_scope.
Open Scope Z_scope.

(** ** Exceptions and results *)

(** The exception classes that the module can raise, with the message
    where the class alone does not identify the raise site. *)
Inductive exception : Type :=
| ValueError (msg : string)
| IndexError (msg : string)
| AttributeError (msg : string).

Inductive result (A : Type) : Type :=
| Ok (a : A)
| Raise (e : exception).

Arguments Ok {A} a.
Arguments Raise {A} e.

Definition result_bind {A B : Type} (r : result A) (k : A -> result B) : result B :=
  match r with
  | Ok a => k a
  | Raise e => Raise e
  end.

(** ** Python primitives used by the module *)

Definition bytes : Type := list byte.

Definition int_of_byte (b : byte) : Z := Z.of_N (Byte.to_N b).

(** One element of the iterable given to [bytes(...)]: an integer
    outside [range(0, 256)] raises [ValueError]. *)
Definition byte_of_int (x : Z) : result byte :=
  if (0 <=? x) && (x <? 256) then
    match Byte.of_N (Z.to_N x) with
    | Some b => Ok b
    | None => Raise (ValueError "bytes must be in range(0, 256)")
    end
  else Raise (ValueError "bytes must be in range(0, 256)").

(** [bytes([x0, x1, ...])]. *)
Fixpoint bytes_of (l : list Z) : result bytes :=
  match l with
  | [] => Ok []
  | x :: l' =>
      result_bind (byte_of_int x) (fun b =>
      result_bind (bytes_of l') (fun bs => Ok (b :: bs)))
  end.

(** [l[0]] on a Python list. *)
Definition index0 {A : Type} (l : list A) : result A :=
  match l with
  | x :: _ => Ok x
  | [] => Raise (IndexError "list index out of range")
  end.

(** ** Constants *)

Definition TRANSACTION_ID : Z := 0x0000.
Definition PROTOCOL_ID : Z := 0x0000.
Definition UNIT_ID : Z := 0x01.
Definition LENGTH : Z := 0x0006.

(** ** Pure helpers *)

Definition unsigned_to_signed_16bit (value : Z) : result Z :=
  if value >? 0xFFFF then
    Raise (ValueError "Value exceeds 16-bit unsigned integer range")
  else
    Ok (if value >? 0x7FFF then value - 0x10000 else value).

Definition build_mbap_header (transaction_id protocol_id length unit_id : Z)
  : result bytes :=
  bytes_of [
    Z.land (Z.shiftr transaction_id 8) 0xFF; Z.land transaction_id 0xFF;
    Z.land (Z.shiftr protocol_id 8) 0xFF; Z.land protocol_id 0xFF;
    Z.land (Z.shiftr length 8) 0xFF; Z.land length 0xFF;
    unit_id
  ].

(** ** The decoded response object

    [send_request] returns whatever [ClientDecoder().decode] builds, and
    the operations only probe that object for attributes
    ([hasattr(m, 'registers')], [m.bits], [m.value]).  The object is
    therefore modelled by its attributes: [None] stands for an absent
    attribute, and [no_attributes] also stands for the [None] object that
    the decoder hands back for an undecodable PDU.  Python's [bool] is a
    subclass of [int], so a boolean [value] is kept as [1] or [0]. *)
Record message : Type := mk_message {
  attr_registers : option (list Z);
  attr_bits : option (list bool);
  attr_value : option Z;
  attr_exception_code : option Z
}.

Definition no_attributes : message := mk_message None None None None.

(** The response decoder of pymodbus is a dependency of the module, not
    part of it: the operations are defined over any decoder. *)
Class ClientDecoder : Type := { decode : bytes -> message }.

(** ** The client and its socket

    The connected socket is a scripted transport: [sent] logs the frames
    written with [send], in order, and [incoming] queues the chunks that
    the successive [recv] calls hand back (so a frame split over several
    segments is a queue of several chunks).  A [recv] on an exhausted
    queue returns the empty [bytes], as on a connection closed by the
    peer.  Socket-level exceptions are not modelled. *)
Record ModbusTcpClient : Type := mk_client {
  sent : list bytes;
  incoming : list bytes
}.

Definition socket_send (data : bytes) (client : ModbusTcpClient) : ModbusTcpClient :=
  mk_client (sent client ++ [data]) (incoming client).

Definition socket_recv (bufsize : nat) (client : ModbusTcpClient)
  : bytes * ModbusTcpClient :=
  match incoming client with
  | [] => ([], client)
  | chunk :: rest =>
      (firstn bufsize chunk,
       mk_client (sent client)
         (match skipn bufsize chunk with
          | [] => rest
          | later => later :: rest
          end))
  end.

(** Operations run against the client: they return a value or raise,
    and in both cases leave the client's socket in a new state. *)
Definition M (A : Type) : Type := ModbusTcpClient -> result A * ModbusTcpClient.

Definition ret {A : Type} (a : A) : M A := fun client => (Ok a, client).

Definition raise {A : Type} (e : exception) : M A := fun client => (Raise e, client).

Definition lift {A : Type} (r : result A) : M A := fun client => (r, client).

Definition bind {A B : Type} (m : M A) (k : A -> M B) : M B :=
  fun client =>
    match m client with
    | (Ok a, client') => k a client'
    | (Raise e, client') => (Raise e, client')
    end.

Notation "x <- m ;; k" := (bind m (fun x => k))
  (at level 61, m at next level, right associativity).

(** ** The operations of rouchu.py *)

Section Operations.

Context {decoder : ClientDecoder}.

Definition send_request (request : bytes) : M message :=
  fun client =>
    let client := socket_send request client in
    let (response, client) := socket_recv 1024 client in
    let response_pdu := skipn 7 response in
    let response_message := decode response_pdu in
    (Ok response_message, client).

Definition get_pressure : M Z :=
  let function_code := 0x03 in
  let starting_address := 0x0302 in
  let quantity_of_registers := 0x0002 in
  request_mbap <- lift (build_mbap_header TRANSACTION_ID PROTOCOL_ID LENGTH UNIT_ID) ;;
  request_pdu <- lift (bytes_of [
    function_code;
    Z.land (Z.shiftr starting_address 8) 0xFF; Z.land starting_address 0xFF;
    Z.land (Z.shiftr quantity_of_registers 8) 0xFF; Z.land quantity_of_registers 0xFF
  ]) ;;
  let request := request_mbap ++ request_pdu in
  response_message <- send_request request ;;
  match attr_registers response_message with
  | Some registers =>
      pressure <- lift (index0 registers) ;;
      lift (unsigned_to_signed_16bit pressure)
  | None => raise (ValueError "Invalid response message")
  end.

Definition set_pressure (pressure_value : Z) (style : string) : M Z :=
  let function_code := 0x06 in
  let address := if String.eqb style "Positive" then 0x0306 else 0x0307 in
  let pressure_value :=
    if String.eqb style "Positive"
    then Z.max 10 (Z.min 300 pressure_value)
    else Z.max (-80) (Z.min (-10) pressure_value) in
  let pressure_high_byte := Z.land (Z.shiftr pressure_value 8) 0xFF in
  let pressure_low_byte := Z.land pressure_value 0xFF in
  request_mbap <- lift (build_mbap_header TRANSACTION_ID PROTOCOL_ID LENGTH UNIT_ID) ;;
  request_pdu <- lift (bytes_of [
    function_code;
    Z.land (Z.shiftr address 8) 0xFF; Z.land address 0xFF;
    pressure_high_byte; pressure_low_byte
  ]) ;;
  let request := request_mbap ++ request_pdu in
  response_message <- send_request request ;;
  match attr_value response_message with
  | Some value => lift (unsigned_to_signed_16bit value)
  | None => raise (AttributeError "value")
  end.

Definition is_pressure_launched (style : string) : M bool :=
  let function_code := 0x02 in
  let address := if String.eqb style "Positive" then 0x0200 else 0x0201 in
  let quantity_of_inputs := 0x0001 in
  request_mbap <- lift (build_mbap_header TRANSACTION_ID PROTOCOL_ID LENGTH UNIT_ID) ;;
  request_pdu <- lift (bytes_of [
    function_code;
    Z.land (Z.shiftr address 8) 0xFF; Z.land address 0xFF;
    Z.land (Z.shiftr quantity_of_inputs 8) 0xFF; Z.land quantity_of_inputs 0xFF
  ]) ;;
  let request := request_mbap ++ request_pdu in
  response_message <- send_request request ;;
  match attr_bits response_message with
  | Some bits => lift (index0 bits)
  | None => raise (ValueError "Invalid response message")
  end.

Definition launch_pressure (state : string) (style : string) : M Z :=
  let function_code := 0x05 in
  let address := if String.eqb style "Positive" then 0x0100 else 0x0101 in
  let value := if String.eqb state "ON" then 0xFF00 else 0x0000 in
  request_mbap <- lift (build_mbap_header TRANSACTION_ID PROTOCOL_ID LENGTH UNIT_ID) ;;
  request_pdu <- lift (bytes_of [
    function_code;
    Z.land (Z.shiftr address 8) 0xFF; Z.land address 0xFF;
    Z.land (Z.shiftr value 8) 0xFF; Z.land value 0xFF
  ]) ;;
  let request := request_mbap ++ request_pdu in
  response_message <- send_request request ;;
  match attr_value response_message with
  | Some echoed => ret echoed
  | None => raise (AttributeError "value")
  end.

End Operations.

(** ** A reference decoder

    What pymodbus (3.3 to 3.7) makes of the response PDUs this client
    meets.  The decoder is a dependency, not part of rouchu.py: the
    operations are defined for every decoder, and a property that
    depends on the library is stated for every decoder that follows
    this model where the model speaks.

    In the library every response object is built with [bits] and
    [registers] set to the empty list ([ModbusResponse.__init__]),
    whatever its kind; its own [decode] then fills in what the PDU
    carries.  [ClientDecoder.decode] catches every decoding error and
    returns [None], which is [no_attributes] here.  The model speaks of
    the empty PDU, of exception responses (function code above [0x80]),
    of read coils / discrete inputs ([0x01], [0x02]), read holding /
    input registers ([0x03], [0x04]), write single coil ([0x05]) and
    write single register ([0x06]); on the other function codes it
    says nothing ([None] of the option). *)

(** [struct.unpack(">H", hi lo)]. *)
Definition unpack_H (hi lo : byte) : Z := 256 * int_of_byte hi + int_of_byte lo.

Fixpoint unpack_registers (count : nat) (data : bytes) : option (list Z) :=
  match count with
  | O => Some []
  | S count' =>
      match data with
      | hi :: lo :: rest =>
          option_map (cons (unpack_H hi lo)) (unpack_registers count' rest)
      | _ => None
      end
  end.

(** Bits of every byte, least significant first. *)
Definition unpack_bitstring (data : bytes) : list bool :=
  flat_map (fun b => map (Z.testbit (int_of_byte b)) [0; 1; 2; 3; 4; 5; 6; 7]) data.

Definition modelled_decode (pdu : bytes) : option message :=
  match pdu with
  | [] => Some no_attributes
  | fc :: data =>
      let function_code := int_of_byte fc in
      if function_code >? 0x80 then
        match data with
        | code :: _ => Some (mk_message (Some []) (Some []) None (Some (int_of_byte code)))
        | [] => Some no_attributes
        end
      else if (function_code =? 0x03) || (function_code =? 0x04) then
        match data with
        | byte_count :: payload =>
            match unpack_registers (Z.to_nat ((int_of_byte byte_count + 1) / 2)) payload with
            | Some registers => Some (mk_message (Some registers) (Some []) None None)
            | None => Some no_attributes
            end
        | [] => Some no_attributes
        end
      else if (function_code =? 0x01) || (function_code =? 0x02) then
        match data with
        | _ :: payload =>
            Some (mk_message (Some []) (Some (unpack_bitstring payload)) None None)
        | [] => Some no_attributes
        end
      else if function_code =? 0x06 then
        match data with
        | [_; _; hi; lo] => Some (mk_message (Some []) (Some []) (Some (unpack_H hi lo)) None)
        | _ => Some no_attributes
        end
      else if function_code =? 0x05 then
        match data with
        | [_; _; hi; lo] =>
            Some (mk_message (Some []) (Some [])
                    (Some (if unpack_H hi lo =? 0xFF00 then 1 else 0)) None)
        | _ => Some no_attributes
        end
      else None
  end.

(** A decoder follows the model when it returns the modelled object
    wherever the model speaks. *)
Definition follows_reference (decoder : ClientDecoder) : Prop :=
  forall pdu m, modelled_decode pdu = Some m -> decode pdu = m.

(** The model completed into a decoder for concrete runs; what it
    returns outside the model is a placeholder that no property relies
    on. *)
Definition reference_decode (pdu : bytes) : message :=
  match modelled_decode pdu with
  | Some m => m
  | None => no_attributes
  end.

Definition reference_decoder : ClientDecoder := {| decode := reference_decode |}.

(** ** Observations on a run *)

(** The object [send_request] is about to return on this client: what
    the decoder makes of the next [recv(1024)], MBAP prefix dropped.
    (Writing a request does not touch the receive queue.) *)
Definition decoded_response {decoder : ClientDecoder} (client : ModbusTcpClient)
  : message :=
  decode (skipn 7 (fst (socket_recv 1024 client))).

(** How each operation reads the decoded object, client left aside:
    the tail of [get_pressure], [set_pressure], [is_pressure_launched]
    and [launch_pressure] after [send_request]. *)
Definition read_register0 (m : message) : result Z :=
  match attr_registers m with
  | Some registers => result_bind (index0 registers) unsigned_to_signed_16bit
  | None => Raise (ValueError "Invalid response message")
  end.

Definition read_value_signed (m : message) : result Z :=
  match attr_value m with
  | Some value => unsigned_to_signed_16bit value
  | None => Raise (AttributeError "value")
  end.

Definition read_bit0 (m : message) : result bool :=
  match attr_bits m with
  | Some bits => index0 bits
  | None => Raise (ValueError "Invalid response message")
  end.

Definition read_value (m : message) : result Z :=
  match attr_value m with
  | Some value => Ok value
  | None => Raise (AttributeError "value")
  end.

(** ** The specification's vocabulary *)

(** Clamping into [[lo, hi]], as the specification words it. *)
Definition clamp (lo hi x : Z) : Z :=
  if x <? lo then lo else if hi <? x then hi else x.

(** The legal range of each style: [[10, 300]] for ['Positive'],
    [[-80, -10]] for every other style. *)
Definition clamped (style : string) (requested : Z) : Z :=
  if String.eqb style "Positive" then clamp 10 300 requested
  else clamp (-80) (-10) requested.

(** The error kinds the specification names. *)
Inductive ErrorKind : Type :=
| RangeError
| MalformedResponse
| ModbusException (code : Z)
| DecodeMismatch
| EmptyResult.

(** Which kind each exception of the module realises: the range check of
    the signed conversion, a decoded object of the wrong shape (the
    explicit [hasattr] test, or the failed attribute access), and an
    empty sequence indexed at [0]. *)
Definition error_kind (e : exception) : option ErrorKind :=
  match e with
  | ValueError msg =>
      if String.eqb msg "Value exceeds 16-bit unsigned integer range" then Some RangeError
      else if String.eqb msg "Invalid response message" then Some DecodeMismatch
      else None
  | IndexError _ => Some EmptyResult
  | AttributeError _ => Some DecodeMismatch
  end.

(** ** The demonstration script of demo.py

    The body of [if __name__ == "__main__":], from the connected client
    on (building the client and [connect()] are the transport's).  The
    process carries the client, what [print] has written, and whether
    [client.close()] has been reached; an exception raised by an
    operation ends the script where it stands. *)

(** A printed line.  An f-string that formats a returned object keeps
    the object apart from the text around it: the object is the model's
    integer, which also stands for a Python [bool] ([1] for [True],
    [0] for [False], as in [message]), so how the object is rendered is
    left out of the model. *)
Inductive line : Type :=
| formatted (before : string) (object : Z) (after : string)
| text (s : string).

Record process : Type := mk_process {
  proc_client : ModbusTcpClient;
  proc_stdout : list line;
  proc_closed : bool
}.

Definition IO (A : Type) : Type := process -> result A * process.

Definition io_bind {A B : Type} (m : IO A) (k : A -> IO B) : IO B :=
  fun p =>
    match m p with
    | (Ok a, p') => k a p'
    | (Raise e, p') => (Raise e, p')
    end.

Notation "x <-- m ;; k" := (io_bind m (fun x => k))
  (at level 61, m at next level, right associativity).

(** A call of an operation on the client of the process. *)
Definition call {A : Type} (op : M A) : IO A :=
  fun p =>
    let (r, client) := op (proc_client p) in
    (r, mk_process client (proc_stdout p) (proc_closed p)).

Definition print (l : line) : IO unit :=
  fun p => (Ok tt, mk_process (proc_client p) (proc_stdout p ++ [l]) (proc_closed p)).

Definition close : IO unit :=
  fun p => (Ok tt, mk_process (proc_client p) (proc_stdout p) true).

Definition demo_main {decoder : ClientDecoder} : IO unit :=
  pressure <-- call get_pressure ;;
  _ <-- print (formatted "当前压力为 " pressure " kPa") ;;
  positive_pressure <-- call (set_pressure 100 "Positive") ;;
  _ <-- print (formatted "设置正压为 " positive_pressure " kPa") ;;
  negative_pressure <-- call (set_pressure (-30) "Negative") ;;
  _ <-- print (formatted "设置负压为 " negative_pressure " kPa") ;;
  _ <-- call (launch_pressure "OFF" "Negative") ;;
  result <-- call (is_pressure_launched "Positive") ;;
  _ <-- print (text ("正压状态为 " ++ (if result : bool then "ON" else "OFF"))) ;;
  close.

(** * Properties *)

(** ** Bytes *)

Lemma byte_of_int_range (x : Z) :
  0 <= x < 256 -> exists b, byte_of_int x = Ok b /\ int_of_byte b = x.
Proof.
  intros Hx. unfold byte_of_int.
  replace ((0 <=? x) && (x <? 256)) with true
    by (symmetry; apply andb_true_iff; split; [apply Z.leb_le | apply Z.ltb_lt]; lia).
  destruct (Byte.of_N (Z.to_N x)) as [b|] eqn:E.
  - exists b. split; [reflexivity|].
    apply Byte.to_of_N in E. unfold int_of_byte. rewrite E. lia.
  - apply Byte.of_N_None_iff in E. lia.
Qed.

Lemma land_255_range (x : Z) : 0 <= Z.land x 0xFF < 256.
Proof.
  change 0xFF with (Z.ones 8). rewrite Z.land_ones by lia.
  change (2 ^ 8) with 256. apply Z.mod_pos_bound. lia.
Qed.

Lemma mbap_header_constant :
  build_mbap_header TRANSACTION_ID PROTOCOL_ID LENGTH UNIT_ID
  = Ok [x00; x00; x00; x00; x00; x06; x01].
Proof. reflexivity. Qed.

(** ** Running a request *)

Section Runs.

Context {decoder : ClientDecoder}.

Lemma socket_recv_after_send (n : nat) (request : bytes) (client : ModbusTcpClient) :
  fst (socket_recv n (socket_send request client)) = fst (socket_recv n client)
  /\ sent (snd (socket_recv n (socket_send request client))) = sent client ++ [request].
Proof.
  unfold socket_recv, socket_send; simpl.
  destruct (incoming client); simpl; auto.
Qed.

Lemma send_request_run (request : bytes) (client : ModbusTcpClient) :
  fst (send_request request client) = Ok (decoded_response client)
  /\ sent (snd (send_request request client)) = sent client ++ [request].
Proof.
  unfold send_request, decoded_response.
  destruct (socket_recv_after_send 1024 request client) as [Hr Hs].
  destruct (socket_recv 1024 (socket_send request client)) as [response client'].
  simpl in *. rewrite Hr. auto.
Qed.

(** An operation that builds [request], sends it and interprets the
    decoded object with [k]. *)
Lemma bind_send_request {A : Type} (request : bytes) (k : message -> M A)
    (client : ModbusTcpClient) :
  (forall m c, snd (k m c) = c) ->
  fst (bind (send_request request) k client)
    = fst (k (decoded_response client) (snd (send_request request client)))
  /\ sent (snd (bind (send_request request) k client)) = sent client ++ [request].
Proof.
  intros Hk. unfold bind.
  destruct (send_request_run request client) as [Hm Hs].
  destruct (send_request request client) as [[m|e] client']; simpl in *.
  - inversion Hm; subst. rewrite Hk. auto.
  - discriminate.
Qed.

End Runs.

Section Requests.

Context {decoder : ClientDecoder}.

(** The continuations of the four operations only compute on the decoded
    object: they leave the client as [send_request] left it. *)
Lemma bind_send_request_pure {A : Type} (request : bytes) (k : message -> M A)
    (f : message -> result A) (client : ModbusTcpClient) :
  (forall m c, k m c = (f m, c)) ->
  fst (bind (send_request request) k client) = f (decoded_response client)
  /\ sent (snd (bind (send_request request) k client)) = sent client ++ [request].
Proof.
  intros Hk.
  destruct (bind_send_request request k client) as [Hf Hs].
  - intros m c. rewrite Hk. reflexivity.
  - rewrite Hf, Hk. auto.
Qed.

Lemma bytes_of_pdu (a b c d e : Z) (a' b' c' d' e' : byte) :
  byte_of_int a = Ok a' -> byte_of_int b = Ok b' -> byte_of_int c = Ok c' ->
  byte_of_int d = Ok d' -> byte_of_int e = Ok e' ->
  bytes_of [a; b; c; d; e] = Ok [a'; b'; c'; d'; e'].
Proof.
  intros Ha Hb Hc Hd He. simpl. rewrite Ha, Hb, Hc, Hd, He. reflexivity.
Qed.

Lemma get_pressure_run (client : ModbusTcpClient) :
  fst (get_pressure client) = read_register0 (decoded_response client)
  /\ sent (snd (get_pressure client))
     = sent client ++ [[x00; x00; x00; x00; x00; x06; x01; x03; x03; x02; x00; x02]].
Proof.
  unfold get_pressure.
  apply (bind_send_request_pure _ _ read_register0).
  intros m c. unfold read_register0.
  destruct (attr_registers m) as [[|r rs]|]; reflexivity.
Qed.

(** The two value bytes of a write request carry [p] in two's
    complement. *)
Lemma value_bytes (p : Z) :
  exists hi lo,
    byte_of_int (Z.land (Z.shiftr p 8) 0xFF) = Ok hi
    /\ byte_of_int (Z.land p 0xFF) = Ok lo
    /\ unpack_H hi lo = p mod 0x10000.
Proof.
  destruct (byte_of_int_range _ (land_255_range (Z.shiftr p 8))) as [hi [Ehi Hhi]].
  destruct (byte_of_int_range _ (land_255_range p)) as [lo [Elo Hlo]].
  exists hi, lo. repeat split; trivial.
  unfold unpack_H. rewrite Hhi, Hlo.
  change 0xFF with (Z.ones 8). rewrite !Z.land_ones by lia.
  rewrite Z.shiftr_div_pow2 by lia.
  change (2 ^ 8) with 256. change 0x10000 with 65536.
  Z.div_mod_to_equations. lia.
Qed.

Lemma signed_of_mod (p : Z) :
  -0x8000 <= p <= 0x7FFF -> unsigned_to_signed_16bit (p mod 0x10000) = Ok p.
Proof.
  intros Hp. unfold unsigned_to_signed_16bit.
  change 0x10000 with 65536. change 0xFFFF with 65535. change 0x7FFF with 32767.
  change 0x8000 with 32768 in Hp. change 0x7FFF with 32767 in Hp.
  pose proof (Z.mod_pos_bound p 65536 ltac:(lia)) as Hm.
  destruct (p mod 65536 >? 65535) eqn:E1; [apply Z.gtb_lt in E1; lia|].
  destruct (p mod 65536 >? 32767) eqn:E2; f_equal.
  - apply Z.gtb_lt in E2. Z.div_mod_to_equations. lia.
  - assert (p mod 65536 <= 32767) by (destruct (Z.gtb_spec (p mod 65536) 32767); [discriminate | lia]).
    Z.div_mod_to_equations. lia.
Qed.

Lemma clamp_range (lo hi x : Z) : lo <= hi -> lo <= clamp lo hi x <= hi.
Proof.
  intros H. unfold clamp.
  destruct (Z.ltb_spec x lo); [lia|]. destruct (Z.ltb_spec hi x); lia.
Qed.

Lemma max_min_clamp (lo hi x : Z) : lo <= hi -> Z.max lo (Z.min hi x) = clamp lo hi x.
Proof.
  intros H. unfold clamp.
  destruct (Z.ltb_spec x lo); [lia|]. destruct (Z.ltb_spec hi x); lia.
Qed.

Lemma clamp_idempotent (lo hi x : Z) : lo <= hi -> clamp lo hi (clamp lo hi x) = clamp lo hi x.
Proof.
  intros H. pose proof (clamp_range lo hi x H) as Hr.
  unfold clamp at 1.
  destruct (Z.ltb_spec (clamp lo hi x) lo); [lia|].
  destruct (Z.ltb_spec hi (clamp lo hi x)); [lia|]. reflexivity.
Qed.

Lemma clamped_range (style : string) (requested : Z) :
  -0x8000 <= clamped style requested <= 0x7FFF.
Proof.
  unfold clamped. destruct (String.eqb style "Positive").
  - pose proof (clamp_range 10 300 requested ltac:(lia)). lia.
  - pose proof (clamp_range (-80) (-10) requested ltac:(lia)). lia.
Qed.

Lemma set_pressure_run (requested : Z) (style : string) (client : ModbusTcpClient) :
  exists hi lo,
    unpack_H hi lo = clamped style requested mod 0x10000
    /\ fst (set_pressure requested style client) = read_value_signed (decoded_response client)
    /\ sent (snd (set_pressure requested style client))
       = sent client ++ [[x00; x00; x00; x00; x00; x06; x01; x06; x03;
                          if String.eqb style "Positive" then x06 else x07; hi; lo]].
Proof.
  destruct (value_bytes (clamped style requested)) as [hi [lo [Ehi [Elo Hv]]]].
  exists hi, lo. split; [exact Hv|].
  unfold set_pressure, clamped in *.
  destruct (String.eqb style "Positive");
    rewrite max_min_clamp by lia;
    cbv zeta;
    erewrite bytes_of_pdu by (first [exact Ehi | exact Elo | reflexivity]);
    apply (bind_send_request_pure _ _ read_value_signed);
    intros m c; unfold read_value_signed; destruct (attr_value m); reflexivity.
Qed.

Lemma is_pressure_launched_run (style : string) (client : ModbusTcpClient) :
  fst (is_pressure_launched style client) = read_bit0 (decoded_response client)
  /\ sent (snd (is_pressure_launched style client))
     = sent client ++ [[x00; x00; x00; x00; x00; x06; x01; x02; x02;
                        if String.eqb style "Positive" then x00 else x01; x00; x01]].
Proof.
  unfold is_pressure_launched.
  destruct (String.eqb style "Positive");
    apply (bind_send_request_pure _ _ read_bit0);
    intros m c; unfold read_bit0; destruct (attr_bits m) as [[|b bs]|]; reflexivity.
Qed.

Lemma launch_pressure_run (state style : string) (client : ModbusTcpClient) :
  fst (launch_pressure state style client) = read_value (decoded_response client)
  /\ sent (snd (launch_pressure state style client))
     = sent client ++ [[x00; x00; x00; x00; x00; x06; x01; x05; x01;
                        if String.eqb style "Positive" then x00 else x01;
                        if String.eqb state "ON" then xff else x00; x00]].
Proof.
  unfold launch_pressure.
  destruct (String.eqb style "Positive"); destruct (String.eqb state "ON");
    apply (bind_send_request_pure _ _ read_value);
    intros m c; unfold read_value; destruct (attr_value m); reflexivity.
Qed.

End Requests.

(** ** Signed conversion *)

(** C2. On the unsigned 16-bit domain the conversion never fails: a value
    of [[0, 0x7FFF]] is returned as it is, a value of [[0x8000, 0xFFFF]]
    is returned minus [0x10000], and the result is a signed 16-bit
    integer. *)
Theorem unsigned_to_signed_16bit_u16 :
  forall v : Z,
    0 <= v <= 0xFFFF ->
    (v <= 0x7FFF -> unsigned_to_signed_16bit v = Ok v)
    /\ (0x8000 <= v -> unsigned_to_signed_16bit v = Ok (v - 0x10000))
    /\ (exists r, unsigned_to_signed_16bit v = Ok r /\ -0x8000 <= r <= 0x7FFF).
Proof.
  intros v Hv. unfold unsigned_to_signed_16bit.
  change 0xFFFF with 65535 in *. change 0x7FFF with 32767 in *.
  change 0x8000 with 32768 in *. change 0x10000 with 65536 in *.
  destruct (Z.gtb_spec v 65535) as [H1|H1]; [lia|].
  destruct (Z.gtb_spec v 32767) as [H2|H2].
  - split; [lia|]. split; [reflexivity|]. eexists; split; [reflexivity | lia].
  - split; [reflexivity|]. split; [lia|]. eexists; split; [reflexivity | lia].
Qed.

Lemma unsigned_to_signed_16bit_u16_witness :
  0 <= 0xFFCE <= 0xFFFF /\ unsigned_to_signed_16bit 0xFFCE = Ok (-50).
Proof.
  split; [lia|].
  apply (unsigned_to_signed_16bit_u16 0xFFCE); lia.
Defined.

(** C10. The conversion raises [ValueError] exactly when its input is
    above [0xFFFF]; every input up to [0x7FFF], negative ones included,
    comes back unchanged, and every input of [[0x8000, 0xFFFF]] comes
    back minus [0x10000]. *)
Theorem unsigned_to_signed_16bit_cases :
  forall v : Z,
    ((exists e, unsigned_to_signed_16bit v = Raise e) <-> v > 0xFFFF)
    /\ (v > 0xFFFF ->
        unsigned_to_signed_16bit v
        = Raise (ValueError "Value exceeds 16-bit unsigned integer range"))
    /\ (v <= 0x7FFF -> unsigned_to_signed_16bit v = Ok v)
    /\ (0x8000 <= v <= 0xFFFF -> unsigned_to_signed_16bit v = Ok (v - 0x10000)).
Proof.
  intros v. unfold unsigned_to_signed_16bit.
  change 0xFFFF with 65535. change 0x7FFF with 32767.
  change 0x8000 with 32768. change 0x10000 with 65536.
  destruct (Z.gtb_spec v 65535) as [H1|H1].
  - repeat split; try lia; intros; eauto.
  - destruct (Z.gtb_spec v 32767) as [H2|H2];
      (split; [split; [intros [e He]; discriminate | lia] |]);
      repeat split; intros; try lia; reflexivity.
Qed.

Lemma unsigned_to_signed_16bit_cases_witness :
  -7 <= 0x7FFF /\ unsigned_to_signed_16bit (-7) = Ok (-7).
Proof.
  split; [lia|].
  apply (unsigned_to_signed_16bit_cases (-7)); lia.
Defined.

(** ** Requests on the wire *)

(** C6. Whatever the operation and its arguments, one frame of twelve
    bytes is written: the MBAP header
    [[0x00,0x00, 0x00,0x00, 0x00,0x06, 0x01]] built from the constants
    (transaction 0, protocol 0, length 6, unit 1), then a PDU of five
    bytes. *)
Theorem requests_are_header_and_five_byte_pdu :
  forall (decoder : ClientDecoder) (client : ModbusTcpClient),
    let header := [x00; x00; x00; x00; x00; x06; x01] in
    (TRANSACTION_ID = 0 /\ PROTOCOL_ID = 0 /\ LENGTH = 6 /\ UNIT_ID = 1)
    /\ build_mbap_header 0 0 6 1 = Ok header
    /\ (exists pdu, List.length pdu = 5%nat /\ List.length (header ++ pdu) = 12%nat
        /\ sent (snd (get_pressure client)) = sent client ++ [header ++ pdu])
    /\ (forall requested style,
        exists pdu, List.length pdu = 5%nat /\ List.length (header ++ pdu) = 12%nat
        /\ sent (snd (set_pressure requested style client)) = sent client ++ [header ++ pdu])
    /\ (forall style,
        exists pdu, List.length pdu = 5%nat /\ List.length (header ++ pdu) = 12%nat
        /\ sent (snd (is_pressure_launched style client)) = sent client ++ [header ++ pdu])
    /\ (forall state style,
        exists pdu, List.length pdu = 5%nat /\ List.length (header ++ pdu) = 12%nat
        /\ sent (snd (launch_pressure state style client)) = sent client ++ [header ++ pdu]).
Proof.
  intros decoder client header.
  split; [repeat split|]. split; [exact mbap_header_constant|].
  split; [|split; [|split]].
  - destruct (get_pressure_run client) as [_ Hs].
    eexists [_; _; _; _; _]. repeat split. exact Hs.
  - intros requested style.
    destruct (set_pressure_run requested style client) as [hi [lo [_ [_ Hs]]]].
    eexists [_; _; _; _; _]. repeat split. exact Hs.
  - intros style.
    destruct (is_pressure_launched_run style client) as [_ Hs].
    eexists [_; _; _; _; _]. repeat split. exact Hs.
  - intros state style.
    destruct (launch_pressure_run state style client) as [_ Hs].
    eexists [_; _; _; _; _]. repeat split. exact Hs.
Qed.

(** C1. [set_pressure] writes the clamped request, whatever integer is
    requested: with ['Positive'] the two value bytes carry the request
    clamped into [[10, 300]], with ['Negative'] they carry, in two's
    complement, the request clamped into [[-80, -10]].  An out-of-range
    request is not rejected: it runs exactly as the clamped request
    does.  With ['Positive'], 500 goes out as 300 and -50 as 10; with
    ['Negative'], 5 goes out as -10 and -200 as -80. *)
Theorem set_pressure_clamps_before_transmission :
  forall (decoder : ClientDecoder) (requested : Z) (client : ModbusTcpClient),
    (exists hi lo,
        sent (snd (set_pressure requested "Positive" client))
        = sent client ++ [[x00; x00; x00; x00; x00; x06; x01; x06; x03; x06; hi; lo]]
        /\ unpack_H hi lo = clamp 10 300 requested
        /\ unsigned_to_signed_16bit (unpack_H hi lo) = Ok (clamp 10 300 requested)
        /\ 10 <= clamp 10 300 requested <= 300)
    /\ (exists hi lo,
        sent (snd (set_pressure requested "Negative" client))
        = sent client ++ [[x00; x00; x00; x00; x00; x06; x01; x06; x03; x07; hi; lo]]
        /\ unsigned_to_signed_16bit (unpack_H hi lo) = Ok (clamp (-80) (-10) requested)
        /\ -80 <= clamp (-80) (-10) requested <= -10)
    /\ (forall style,
        set_pressure requested style client
        = set_pressure (clamped style requested) style client)
    /\ sent (snd (set_pressure 500 "Positive" client))
       = sent client ++ [[x00; x00; x00; x00; x00; x06; x01; x06; x03; x06; x01; x2c]]
    /\ sent (snd (set_pressure (-50) "Positive" client))
       = sent client ++ [[x00; x00; x00; x00; x00; x06; x01; x06; x03; x06; x00; x0a]]
    /\ sent (snd (set_pressure 5 "Negative" client))
       = sent client ++ [[x00; x00; x00; x00; x00; x06; x01; x06; x03; x07; xff; xf6]]
    /\ sent (snd (set_pressure (-200) "Negative" client))
       = sent client ++ [[x00; x00; x00; x00; x00; x06; x01; x06; x03; x07; xff; xb0]]
    /\ unpack_H x01 x2c = 300 /\ unpack_H x00 x0a = 10
    /\ unsigned_to_signed_16bit (unpack_H xff xf6) = Ok (-10)
    /\ unsigned_to_signed_16bit (unpack_H xff xb0) = Ok (-80).
Proof.
  intros decoder requested client.
  split; [|split; [|split]].
  - destruct (set_pressure_run requested "Positive" client) as [hi [lo [Hv [_ Hs]]]].
    exists hi, lo. change (clamped "Positive" requested) with (clamp 10 300 requested) in Hv.
    pose proof (clamp_range 10 300 requested ltac:(lia)) as Hr.
    split; [exact Hs|].
    assert (Hm : clamp 10 300 requested mod 0x10000 = clamp 10 300 requested)
      by (apply Z.mod_small; change 0x10000 with 65536; lia).
    split; [congruence|]. split; [|exact Hr].
    rewrite Hv. apply signed_of_mod.
    change 0x8000 with 32768; change 0x7FFF with 32767; lia.
  - destruct (set_pressure_run requested "Negative" client) as [hi [lo [Hv [_ Hs]]]].
    exists hi, lo. change (clamped "Negative" requested) with (clamp (-80) (-10) requested) in Hv.
    pose proof (clamp_range (-80) (-10) requested ltac:(lia)) as Hr.
    split; [exact Hs|]. split; [|exact Hr].
    rewrite Hv. apply signed_of_mod.
    change 0x8000 with 32768; change 0x7FFF with 32767; lia.
  - intros style. unfold set_pressure, clamped.
    destruct (String.eqb style "Positive");
      rewrite !max_min_clamp, clamp_idempotent by lia; reflexivity.
  - repeat split;
      try (unfold set_pressure;
           refine (proj2 (bind_send_request_pure _ _ read_value_signed client _));
           intros m c; unfold read_value_signed; destruct (attr_value m); reflexivity).
Qed.

(** ** Reading the pressure *)

(** C5. [get_pressure] writes a read-holding-registers request
    (function code [0x03]) for 2 registers from address [0x0302], and
    answers with the signed 16-bit reading of the first decoded
    register alone, whatever the other registers are: a register of
    [[0, 0x7FFF]] reads as itself, one of [[0x8000, 0xFFFF]] as itself
    minus [0x10000], and [0xFFCE] as [-50]. *)
Theorem get_pressure_reads_first_register :
  forall (decoder : ClientDecoder) (client : ModbusTcpClient),
    sent (snd (get_pressure client))
    = sent client ++ [[x00; x00; x00; x00; x00; x06; x01; x03; x03; x02; x00; x02]]
    /\ (forall r0 rest,
        attr_registers (decoded_response client) = Some (r0 :: rest) ->
        fst (get_pressure client) = unsigned_to_signed_16bit r0
        /\ (0 <= r0 <= 0x7FFF -> fst (get_pressure client) = Ok r0)
        /\ (0x8000 <= r0 <= 0xFFFF -> fst (get_pressure client) = Ok (r0 - 0x10000)))
    /\ (forall rest,
        attr_registers (decoded_response client) = Some (0xFFCE :: rest) ->
        fst (get_pressure client) = Ok (-50)).
Proof.
  intros decoder client.
  destruct (get_pressure_run client) as [Hf Hs].
  split; [exact Hs|]. rewrite Hf. unfold read_register0.
  split.
  - intros r0 rest ->. cbn [result_bind index0].
    split; [reflexivity|]. unfold unsigned_to_signed_16bit.
    split; intros Hr;
      destruct (Z.gtb_spec r0 0xFFFF); try lia;
      destruct (Z.gtb_spec r0 0x7FFF); try lia; reflexivity.
  - intros rest ->. reflexivity.
Qed.

Lemma get_pressure_reads_first_register_witness :
  let client :=
    mk_client [] [[x00; x00; x00; x00; x00; x07; x01; x03; x04; xff; xce; x12; x34]] in
  attr_registers (@decoded_response reference_decoder client) = Some [0xFFCE; 0x1234]
  /\ fst (@get_pressure reference_decoder client) = Ok (-50).
Proof.
  split; [reflexivity|].
  apply (proj2 (proj2 (get_pressure_reads_first_register reference_decoder
           (mk_client [] [[x00; x00; x00; x00; x00; x07; x01; x03; x04; xff; xce; x12; x34]])))
           [0x1234]).
  reflexivity.
Defined.

(** ** Responses of another kind *)

Lemma reference_decoder_follows : follows_reference reference_decoder.
Proof.
  intros pdu m H. cbn. unfold reference_decode. rewrite H. reflexivity.
Qed.

Lemma skipn_header (header tail : bytes) :
  List.length header = 7%nat -> skipn 7 (header ++ tail) = tail.
Proof.
  intros Hlen.
  do 8 (destruct header as [|? header]; try discriminate Hlen).
  reflexivity.
Qed.

(** The object a decoder that follows the model returns for a response
    whose bytes after the header are a modelled PDU. *)
Lemma decoded_response_follows (decoder : ClientDecoder) (client : ModbusTcpClient)
    (header pdu : bytes) (m : message) :
  follows_reference decoder ->
  List.length header = 7%nat ->
  fst (socket_recv 1024 client) = header ++ pdu ->
  modelled_decode pdu = Some m ->
  decoded_response client = m.
Proof.
  intros Hd Hlen Hrecv Hm. unfold decoded_response.
  rewrite Hrecv, skipn_header by exact Hlen. apply Hd. exact Hm.
Qed.

(** C3, as the code has it.  On a response whose PDU carries function
    code [0x83], [get_pressure] never returns a pressure: it fails with
    one of the two errors it raises on a decoded object, the
    [IndexError] of an empty register list or the
    [ValueError("Invalid response message")] of an object without
    [registers].  The error is the same for every exception code and
    every payload: the exception code byte stays in the decoded object
    and is not carried by the error, and no register is decoded from
    the payload. *)
Theorem get_pressure_exception_response :
  forall (decoder : ClientDecoder) (client : ModbusTcpClient)
         (header : bytes) (code : byte) (rest : bytes),
    follows_reference decoder ->
    List.length header = 7%nat ->
    fst (socket_recv 1024 client) = header ++ x83 :: code :: rest ->
    attr_exception_code (decoded_response client) = Some (int_of_byte code)
    /\ (exists e,
          fst (get_pressure client) = Raise e
          /\ (e = IndexError "list index out of range"
              \/ e = ValueError "Invalid response message"))
    /\ (forall (client' : ModbusTcpClient) (header' : bytes) (code' : byte) (rest' : bytes),
          List.length header' = 7%nat ->
          fst (socket_recv 1024 client') = header' ++ x83 :: code' :: rest' ->
          fst (get_pressure client') = fst (get_pressure client)).
Proof.
  intros decoder client header code rest Hd Hlen Hrecv.
  assert (Hexc : forall c h k r,
             List.length h = 7%nat ->
             fst (socket_recv 1024 c) = h ++ x83 :: k :: r ->
             decoded_response c
             = mk_message (Some []) (Some []) None (Some (int_of_byte k))
             /\ fst (get_pressure c) = Raise (IndexError "list index out of range")).
  { intros c h k r Hl Hr.
    assert (Hm : decoded_response c
                 = mk_message (Some []) (Some []) None (Some (int_of_byte k)))
      by (apply (decoded_response_follows decoder c h (x83 :: k :: r)); trivial).
    split; [exact Hm|].
    rewrite (proj1 (get_pressure_run c)), Hm. reflexivity. }
  destruct (Hexc client header code rest Hlen Hrecv) as [Hm Hf].
  split; [rewrite Hm; reflexivity|].
  split; [exists (IndexError "list index out of range"); auto|].
  intros client' header' code' rest' Hlen' Hrecv'.
  destruct (Hexc client' header' code' rest' Hlen' Hrecv') as [_ Hf'].
  rewrite Hf, Hf'. reflexivity.
Qed.

Lemma get_pressure_exception_response_witness :
  let client := mk_client [] [[x00; x00; x00; x00; x00; x03; x01; x83; x02]] in
  fst (socket_recv 1024 client) = [x00; x00; x00; x00; x00; x03; x01] ++ [x83; x02]
  /\ attr_exception_code (@decoded_response reference_decoder client) = Some 2.
Proof.
  split; [reflexivity|].
  apply (get_pressure_exception_response reference_decoder
           (mk_client [] [[x00; x00; x00; x00; x00; x03; x01; x83; x02]])
           [x00; x00; x00; x00; x00; x03; x01] x02 []);
    [intros pdu m H; cbn; unfold reference_decode; rewrite H; reflexivity
    | reflexivity | reflexivity].
Defined.

(** C3, as the claim has it, fails: on the exception responses [83 02]
    and [83 03] the error of [get_pressure] is one and the same
    [IndexError] of indexing an empty register list, so it carries
    neither exception code. *)
Lemma get_pressure_exception_response_error_has_no_code :
  let illegal_address := mk_client [] [[x00; x00; x00; x00; x00; x03; x01; x83; x02]] in
  let illegal_value := mk_client [] [[x00; x00; x00; x00; x00; x03; x01; x83; x03]] in
  attr_exception_code (@decoded_response reference_decoder illegal_address) = Some 2
  /\ attr_exception_code (@decoded_response reference_decoder illegal_value) = Some 3
  /\ fst (@get_pressure reference_decoder illegal_address)
     = Raise (IndexError "list index out of range")
  /\ fst (@get_pressure reference_decoder illegal_value)
     = fst (@get_pressure reference_decoder illegal_address).
Proof. repeat split. Qed.

(** ** Actuation status *)

(** C4, where the code departs from it.  [is_pressure_launched] guards
    its reading with [hasattr(response_message, 'bits')] and raises
    [ValueError("Invalid response message")] when the attribute is
    missing; but a response of another kind, here a read-holding-
    registers reply [03 02 hi lo], is an object that carries the empty
    default [bits]: the guard lets it through and the operation fails
    with the [IndexError] of an empty bit sequence, the very result it
    gives for the bit reply [02 00], instead of the wrong-shape
    error. *)
Theorem is_pressure_launched_reply_of_another_kind :
  forall (decoder : ClientDecoder) (style : string) (client : ModbusTcpClient)
         (header : bytes) (hi lo : byte),
    follows_reference decoder ->
    List.length header = 7%nat ->
    fst (socket_recv 1024 client) = header ++ [x03; x02; hi; lo] ->
    attr_registers (decoded_response client) = Some [unpack_H hi lo]
    /\ attr_bits (decoded_response client) = Some []
    /\ fst (is_pressure_launched style client)
       = Raise (IndexError "list index out of range")
    /\ fst (is_pressure_launched style client)
       <> Raise (ValueError "Invalid response message")
    /\ error_kind (IndexError "list index out of range") = Some EmptyResult
    /\ (forall (client' : ModbusTcpClient) (header' : bytes),
          List.length header' = 7%nat ->
          fst (socket_recv 1024 client') = header' ++ [x02; x00] ->
          fst (is_pressure_launched style client')
          = fst (is_pressure_launched style client))
    /\ (forall client' : ModbusTcpClient,
          attr_bits (decoded_response client') = None ->
          fst (is_pressure_launched style client')
          = Raise (ValueError "Invalid response message")).
Proof.
  intros decoder style client header hi lo Hd Hlen Hrecv.
  assert (Hm : decoded_response client
               = mk_message (Some [unpack_H hi lo]) (Some []) None None)
    by (apply (decoded_response_follows decoder client header [x03; x02; hi; lo]);
        trivial).
  assert (Hf : fst (is_pressure_launched style client)
               = Raise (IndexError "list index out of range"))
    by (rewrite (proj1 (is_pressure_launched_run style client)), Hm; reflexivity).
  rewrite Hf, Hm. repeat split; try discriminate.
  - intros client' header' Hlen' Hrecv'.
    rewrite (proj1 (is_pressure_launched_run style client')).
    rewrite (decoded_response_follows decoder client' header' [x02; x00]
               (mk_message (Some []) (Some []) None None)); trivial.
  - intros client' Hnone.
    rewrite (proj1 (is_pressure_launched_run style client')).
    unfold read_bit0. rewrite Hnone. reflexivity.
Qed.

Lemma is_pressure_launched_reply_of_another_kind_witness :
  fst (@is_pressure_launched reference_decoder "Positive"
         (mk_client [] [[x00; x00; x00; x00; x00; x05; x01; x03; x02; x00; x64]]))
  = Raise (IndexError "list index out of range").
Proof.
  apply (is_pressure_launched_reply_of_another_kind reference_decoder "Positive"
           (mk_client [] [[x00; x00; x00; x00; x00; x05; x01; x03; x02; x00; x64]])
           [x00; x00; x00; x00; x00; x05; x01] x00 x64);
    [intros pdu m H; cbn; unfold reference_decode; rewrite H; reflexivity
    | reflexivity | reflexivity].
Defined.

(** ** Round trip of a written value *)

(** C7. When the response to [set_pressure] is a write-single-register
    PDU whose value field repeats the two value bytes of the request,
    and the decoder reads that field as the big-endian 16-bit [value],
    [set_pressure] returns exactly the clamped request. *)
Theorem set_pressure_echo_round_trip :
  forall (decoder : ClientDecoder) (requested : Z) (style : string)
         (client : ModbusTcpClient) (header : bytes) (f r1 r2 a1 a2 hi lo : byte),
    (forall b1 b2 v1 v2,
        attr_value (decode [x06; b1; b2; v1; v2]) = Some (unpack_H v1 v2)) ->
    sent (snd (set_pressure requested style client))
    = sent client ++ [[x00; x00; x00; x00; x00; x06; x01; f; r1; r2; hi; lo]] ->
    List.length header = 7%nat ->
    fst (socket_recv 1024 client) = header ++ [x06; a1; a2; hi; lo] ->
    fst (set_pressure requested style client) = Ok (clamped style requested).
Proof.
  intros decoder requested style client header f r1 r2 a1 a2 hi lo Hdec Hsent Hlen Hrecv.
  destruct (set_pressure_run requested style client) as [hi' [lo' [Hv [Hf Hs]]]].
  rewrite Hs in Hsent. apply app_inv_head in Hsent.
  injection Hsent as _ _ _ -> ->.
  rewrite Hf. unfold read_value_signed, decoded_response. rewrite Hrecv.
  do 8 (destruct header as [|? header]; try discriminate Hlen).
  change (skipn 7 _) with [x06; a1; a2; hi; lo].
  rewrite Hdec, Hv.
  apply signed_of_mod, clamped_range.
Qed.

Lemma set_pressure_echo_round_trip_witness :
  let client :=
    mk_client [] [[x00; x00; x00; x00; x00; x06; x01; x06; x03; x07; xff; xb0]] in
  fst (@set_pressure reference_decoder (-200) "Negative" client) = Ok (-80).
Proof.
  apply (set_pressure_echo_round_trip reference_decoder (-200) "Negative"
           (mk_client [] [[x00; x00; x00; x00; x00; x06; x01; x06; x03; x07; xff; xb0]])
           [x00; x00; x00; x00; x00; x06; x01] x06 x03 x07 x03 x07 xff xb0);
    reflexivity.
Defined.

(** ** Style and state selectors *)

(** C8. A style that is not exactly ['Positive'] (['positive'],
    ['POSITIVE'], the empty string, ...) runs as ['Negative'] does:
    [set_pressure] writes to [0x0307] the request clamped into
    [[-80, -10]], [is_pressure_launched] reads input [0x0201] and
    [launch_pressure] writes coil [0x0101]; the request goes out in
    every case, no style is rejected. *)
Theorem unknown_style_runs_as_negative :
  forall (decoder : ClientDecoder) (style : string),
    style <> "Positive" ->
    forall (requested : Z) (state : string) (client : ModbusTcpClient),
      set_pressure requested style client = set_pressure requested "Negative" client
      /\ is_pressure_launched style client = is_pressure_launched "Negative" client
      /\ launch_pressure state style client = launch_pressure state "Negative" client
      /\ (exists hi lo,
          sent (snd (set_pressure requested style client))
          = sent client ++ [[x00; x00; x00; x00; x00; x06; x01; x06; x03; x07; hi; lo]]
          /\ unsigned_to_signed_16bit (unpack_H hi lo) = Ok (clamp (-80) (-10) requested)
          /\ -80 <= clamp (-80) (-10) requested <= -10)
      /\ sent (snd (is_pressure_launched style client))
         = sent client ++ [[x00; x00; x00; x00; x00; x06; x01; x02; x02; x01; x00; x01]]
      /\ sent (snd (launch_pressure state style client))
         = sent client ++ [[x00; x00; x00; x00; x00; x06; x01; x05; x01; x01;
                            if String.eqb state "ON" then xff else x00; x00]].
Proof.
  intros decoder style Hstyle requested state client.
  apply String.eqb_neq in Hstyle.
  split; [unfold set_pressure; rewrite Hstyle; reflexivity|].
  split; [unfold is_pressure_launched; rewrite Hstyle; reflexivity|].
  split; [unfold launch_pressure; rewrite Hstyle; reflexivity|].
  split; [|split].
  - destruct (set_pressure_run requested style client) as [hi [lo [Hv [_ Hs]]]].
    unfold clamped in Hv. rewrite Hstyle in Hv, Hs.
    exists hi, lo. split; [exact Hs|].
    pose proof (clamp_range (-80) (-10) requested ltac:(lia)) as Hr.
    split; [|exact Hr].
    rewrite Hv. apply signed_of_mod.
    change 0x8000 with 32768; change 0x7FFF with 32767; lia.
  - destruct (is_pressure_launched_run style client) as [_ Hs].
    rewrite Hstyle in Hs. exact Hs.
  - destruct (launch_pressure_run state style client) as [_ Hs].
    rewrite Hstyle in Hs. exact Hs.
Qed.

Lemma unknown_style_runs_as_negative_witness :
  "positive" <> "Positive"
  /\ sent (snd (@is_pressure_launched reference_decoder "positive" (mk_client [] [])))
     = [[x00; x00; x00; x00; x00; x06; x01; x02; x02; x01; x00; x01]].
Proof.
  split; [discriminate|].
  apply (unknown_style_runs_as_negative reference_decoder "positive"
           ltac:(discriminate) 0 "ON" (mk_client [] [])).
Defined.

(** C9. [launch_pressure] writes coil value [0xFF00] when the state is
    exactly ['ON'] and [0x0000] for every other string (['On'], ['on'],
    ['OFF'], ...), which runs as ['OFF'] does; the request goes out in
    every case, no state is rejected. *)
Theorem launch_pressure_coil_value :
  forall (decoder : ClientDecoder) (state style : string) (client : ModbusTcpClient),
    let address_low := if String.eqb style "Positive" then x00 else x01 in
    (state = "ON" ->
     sent (snd (launch_pressure state style client))
     = sent client ++ [[x00; x00; x00; x00; x00; x06; x01; x05; x01; address_low; xff; x00]])
    /\ (state <> "ON" ->
        sent (snd (launch_pressure state style client))
        = sent client ++ [[x00; x00; x00; x00; x00; x06; x01; x05; x01; address_low; x00; x00]]
        /\ launch_pressure state style client = launch_pressure "OFF" style client)
    /\ unpack_H xff x00 = 0xFF00 /\ unpack_H x00 x00 = 0x0000.
Proof.
  intros decoder state style client address_low.
  destruct (launch_pressure_run state style client) as [_ Hs].
  split; [|split; [|split; reflexivity]].
  - intros ->. exact Hs.
  - intros Hstate. apply String.eqb_neq in Hstate.
    rewrite Hstate in Hs. split; [exact Hs|].
    unfold launch_pressure. rewrite Hstate. reflexivity.
Qed.

Lemma launch_pressure_coil_value_witness :
  "On" <> "ON"
  /\ sent (snd (@launch_pressure reference_decoder "On" "Positive" (mk_client [] [])))
     = [[x00; x00; x00; x00; x00; x06; x01; x05; x01; x00; x00; x00]].
Proof.
  split; [discriminate|].
  apply (proj1 (proj2 (launch_pressure_coil_value reference_decoder "On" "Positive"
                         (mk_client [] []))));
    discriminate.
Defined.

(** * Further properties of the code *)

(** ** The MBAP header builder *)

Lemma byte_of_int_out_of_range (x : Z) :
  ~ (0 <= x < 256) -> byte_of_int x = Raise (ValueError "bytes must be in range(0, 256)").
Proof.
  intros Hx. unfold byte_of_int.
  destruct (Z.leb_spec 0 x); destruct (Z.ltb_spec x 256); simpl; try reflexivity; lia.
Qed.

(** The six masked bytes always fit; only [unit_id] is passed to
    [bytes(...)] as it is. *)
Lemma build_mbap_header_fields (transaction_id protocol_id length unit_id : Z) :
  exists t1 t0 p1 p0 l1 l0,
    build_mbap_header transaction_id protocol_id length unit_id
    = result_bind (byte_of_int unit_id) (fun u => Ok [t1; t0; p1; p0; l1; l0; u])
    /\ unpack_H t1 t0 = transaction_id mod 0x10000
    /\ unpack_H p1 p0 = protocol_id mod 0x10000
    /\ unpack_H l1 l0 = length mod 0x10000.
Proof.
  destruct (value_bytes transaction_id) as [t1 [t0 [Et1 [Et0 Ht]]]].
  destruct (value_bytes protocol_id) as [p1 [p0 [Ep1 [Ep0 Hp]]]].
  destruct (value_bytes length) as [l1 [l0 [El1 [El0 Hl]]]].
  exists t1, t0, p1, p0, l1, l0. repeat split; trivial.
  unfold build_mbap_header. cbn [bytes_of].
  rewrite Et1, Et0, Ep1, Ep0, El1, El0. cbn [result_bind].
  destruct (byte_of_int unit_id); reflexivity.
Qed.

(** X1. [build_mbap_header] fails exactly when [unit_id] is outside
    [range(0, 256)], with the [ValueError] of [bytes(...)]; the three
    16-bit fields are masked and never make it fail, whatever their
    size or sign. *)
Theorem build_mbap_header_fails_iff_unit_id_out_of_range :
  forall transaction_id protocol_id length unit_id : Z,
    ((exists header,
         build_mbap_header transaction_id protocol_id length unit_id = Ok header)
     <-> 0 <= unit_id < 256)
    /\ (~ (0 <= unit_id < 256) ->
        build_mbap_header transaction_id protocol_id length unit_id
        = Raise (ValueError "bytes must be in range(0, 256)")).
Proof.
  intros t p l u.
  destruct (build_mbap_header_fields t p l u) as [t1 [t0 [p1 [p0 [l1 [l0 [E _]]]]]]].
  rewrite E. split; [split|].
  - intros [header H].
    destruct (Z.le_gt_cases 0 u); [destruct (Z.lt_ge_cases u 256); [lia|]|];
      rewrite byte_of_int_out_of_range in H by lia; discriminate H.
  - intros Hu. destruct (byte_of_int_range u Hu) as [b [Eb _]].
    rewrite Eb. eexists. reflexivity.
  - intros Hu. rewrite byte_of_int_out_of_range by exact Hu. reflexivity.
Qed.

Lemma build_mbap_header_fails_iff_unit_id_out_of_range_witness :
  ~ (0 <= 256 < 256)
  /\ build_mbap_header 0 0 6 256 = Raise (ValueError "bytes must be in range(0, 256)").
Proof.
  split; [lia|].
  apply (proj2 (build_mbap_header_fails_iff_unit_id_out_of_range 0 0 6 256)); lia.
Defined.

(** X2. With a [unit_id] that fits a byte, the header is seven bytes:
    transaction id, protocol id and length, each big-endian on two
    bytes and reduced modulo [0x10000], then the unit id.  A field
    within 16 bits is read back exactly; a larger or negative one is
    truncated without an error. *)
Theorem build_mbap_header_big_endian :
  forall transaction_id protocol_id length unit_id : Z,
    0 <= unit_id < 256 ->
    exists t1 t0 p1 p0 l1 l0 u,
      build_mbap_header transaction_id protocol_id length unit_id
      = Ok [t1; t0; p1; p0; l1; l0; u]
      /\ unpack_H t1 t0 = transaction_id mod 0x10000
      /\ unpack_H p1 p0 = protocol_id mod 0x10000
      /\ unpack_H l1 l0 = length mod 0x10000
      /\ int_of_byte u = unit_id
      /\ (0 <= transaction_id <= 0xFFFF -> unpack_H t1 t0 = transaction_id)
      /\ (0 <= protocol_id <= 0xFFFF -> unpack_H p1 p0 = protocol_id)
      /\ (0 <= length <= 0xFFFF -> unpack_H l1 l0 = length).
Proof.
  intros t p l u Hu.
  destruct (build_mbap_header_fields t p l u)
    as [t1 [t0 [p1 [p0 [l1 [l0 [E [Ht [Hp Hl]]]]]]]]].
  destruct (byte_of_int_range u Hu) as [b [Eb Hb]].
  exists t1, t0, p1, p0, l1, l0, b.
  rewrite E, Eb. cbn [result_bind].
  repeat split; trivial; intros H;
    match goal with
    | |- unpack_H _ _ = ?x =>
        transitivity (x mod 0x10000);
        [assumption | apply Z.mod_small; change 0x10000 with 65536;
                      change 0xFFFF with 65535 in H; lia]
    end.
Qed.

Lemma build_mbap_header_big_endian_witness :
  0 <= 0x11 < 256
  /\ exists t1 t0 p1 p0 l1 l0 u,
      build_mbap_header 0x1ABCD 0 6 0x11 = Ok [t1; t0; p1; p0; l1; l0; u]
      /\ unpack_H t1 t0 = 0xABCD /\ unpack_H l1 l0 = 6 /\ int_of_byte u = 0x11.
Proof.
  split; [lia|].
  destruct (build_mbap_header_big_endian 0x1ABCD 0 6 0x11 ltac:(lia))
    as [t1 [t0 [p1 [p0 [l1 [l0 [u [E [Ht [_ [Hl [Hu _]]]]]]]]]]]].
  exists t1, t0, p1, p0, l1, l0, u.
  split; [exact E|]. split; [exact Ht|]. split; [exact Hl | exact Hu].
Defined.

(** ** Two's complement *)

(** X3. On 16 bits the signed conversion is a bijection between
    [[0, 0xFFFF]] and [[-0x8000, 0x7FFF]]: the result of a 16-bit value
    reduces back to it modulo [0x10000], every signed 16-bit integer is
    the result of its residue, and two 16-bit values with the same
    result are equal. *)
Theorem unsigned_to_signed_16bit_bijection :
  (forall v, 0 <= v <= 0xFFFF ->
     exists r, unsigned_to_signed_16bit v = Ok r
               /\ -0x8000 <= r <= 0x7FFF /\ r mod 0x10000 = v)
  /\ (forall p, -0x8000 <= p <= 0x7FFF ->
        0 <= p mod 0x10000 <= 0xFFFF
        /\ unsigned_to_signed_16bit (p mod 0x10000) = Ok p)
  /\ (forall v w, 0 <= v <= 0xFFFF -> 0 <= w <= 0xFFFF ->
        unsigned_to_signed_16bit v = unsigned_to_signed_16bit w -> v = w).
Proof.
  assert (Hfwd : forall v, 0 <= v <= 0xFFFF ->
             exists r, unsigned_to_signed_16bit v = Ok r
                       /\ -0x8000 <= r <= 0x7FFF /\ r mod 0x10000 = v).
  { intros v Hv. unfold unsigned_to_signed_16bit.
    change 0xFFFF with 65535 in *. change 0x7FFF with 32767.
    change 0x8000 with 32768. change 0x10000 with 65536.
    destruct (Z.gtb_spec v 65535); [lia|].
    destruct (Z.gtb_spec v 32767); eexists; (split; [reflexivity|]); split; try lia.
    - replace (v - 65536) with (v + (-1) * 65536) by lia.
      rewrite Z.mod_add by lia. apply Z.mod_small. lia.
    - apply Z.mod_small. lia. }
  split; [exact Hfwd|]. split.
  - intros p Hp. split; [|apply signed_of_mod; exact Hp].
    pose proof (Z.mod_pos_bound p 0x10000 ltac:(reflexivity)) as H.
    change 0x10000 with 65536 in *. change 0xFFFF with 65535. lia.
  - intros v w Hv Hw E.
    destruct (Hfwd v Hv) as [r [Er [_ Hr]]].
    destruct (Hfwd w Hw) as [r' [Er' [_ Hr']]].
    rewrite Er, Er' in E. injection E as ->. congruence.
Qed.

Lemma unsigned_to_signed_16bit_bijection_witness :
  -0x8000 <= -30 <= 0x7FFF /\ unsigned_to_signed_16bit ((-30) mod 0x10000) = Ok (-30).
Proof.
  split; [lia|].
  apply (proj1 (proj2 unsigned_to_signed_16bit_bijection) (-30)); lia.
Defined.

(** ** What the operations make of a response *)

Section Responses.

Context {decoder : ClientDecoder}.

Lemma decoded_response_tail (c1 c2 : ModbusTcpClient) :
  skipn 7 (fst (socket_recv 1024 c1)) = skipn 7 (fst (socket_recv 1024 c2)) ->
  decoded_response c1 = decoded_response c2.
Proof. unfold decoded_response. intros ->. reflexivity. Qed.

Lemma decoded_response_short (client : ModbusTcpClient) :
  (List.length (fst (socket_recv 1024 client)) <= 7)%nat ->
  decoded_response client = decode [].
Proof.
  intros H. unfold decoded_response. rewrite skipn_all2 by exact H. reflexivity.
Qed.

Lemma set_pressure_result (requested : Z) (style : string) (client : ModbusTcpClient) :
  fst (set_pressure requested style client) = read_value_signed (decoded_response client).
Proof.
  destruct (set_pressure_run requested style client) as [hi [lo [_ [Hf _]]]]. exact Hf.
Qed.

End Responses.

(** X4. The first seven bytes of a response are dropped unread: two
    responses that agree from the eighth byte on give every operation
    the same result, whatever transaction id, protocol id, length or
    unit id the response header carries. *)
Theorem response_header_is_ignored :
  forall (decoder : ClientDecoder) (c1 c2 : ModbusTcpClient)
         (requested : Z) (style state : string),
    skipn 7 (fst (socket_recv 1024 c1)) = skipn 7 (fst (socket_recv 1024 c2)) ->
    fst (get_pressure c1) = fst (get_pressure c2)
    /\ fst (set_pressure requested style c1) = fst (set_pressure requested style c2)
    /\ fst (is_pressure_launched style c1) = fst (is_pressure_launched style c2)
    /\ fst (launch_pressure state style c1) = fst (launch_pressure state style c2).
Proof.
  intros decoder c1 c2 requested style state H.
  apply decoded_response_tail in H.
  rewrite (proj1 (get_pressure_run c1)), (proj1 (get_pressure_run c2)).
  rewrite !set_pressure_result.
  rewrite (proj1 (is_pressure_launched_run style c1)),
          (proj1 (is_pressure_launched_run style c2)).
  rewrite (proj1 (launch_pressure_run state style c1)),
          (proj1 (launch_pressure_run state style c2)).
  rewrite H. repeat split.
Qed.

Lemma response_header_is_ignored_witness :
  fst (@get_pressure reference_decoder
         (mk_client [] [[x00; x00; x00; x00; x00; x07; x01; x03; x04; xff; xce; x00; x00]]))
  = fst (@get_pressure reference_decoder
           (mk_client [] [[xde; xad; xbe; xef; x12; x34; x09; x03; x04; xff; xce; x00; x00]])).
Proof.
  apply (response_header_is_ignored reference_decoder
           (mk_client [] [[x00; x00; x00; x00; x00; x07; x01; x03; x04; xff; xce; x00; x00]])
           (mk_client [] [[xde; xad; xbe; xef; x12; x34; x09; x03; x04; xff; xce; x00; x00]])
           0 "Positive" "ON").
  reflexivity.
Defined.

(** X5. No operation compares the response with its request: on a given
    client the result of [set_pressure] is the same for every requested
    value and style, that of [is_pressure_launched] for every style and
    that of [launch_pressure] for every state and style. *)
Theorem results_do_not_depend_on_arguments :
  forall (decoder : ClientDecoder) (client : ModbusTcpClient)
         (requested requested' : Z) (style style' state state' : string),
    fst (set_pressure requested style client) = fst (set_pressure requested' style' client)
    /\ fst (is_pressure_launched style client) = fst (is_pressure_launched style' client)
    /\ fst (launch_pressure state style client) = fst (launch_pressure state' style' client).
Proof.
  intros decoder client requested requested' style style' state state'.
  rewrite !set_pressure_result.
  rewrite (proj1 (is_pressure_launched_run style client)),
          (proj1 (is_pressure_launched_run style' client)).
  rewrite (proj1 (launch_pressure_run state style client)),
          (proj1 (launch_pressure_run state' style' client)).
  repeat split.
Qed.

(** X6. A response of at most seven bytes (the empty one of a closed
    connection included) leaves the decoder with the empty PDU.  When
    the decoder answers that with an object without attributes,
    [get_pressure] and [is_pressure_launched] raise
    [ValueError("Invalid response message")], while [set_pressure] and
    [launch_pressure] raise [AttributeError]. *)
Theorem short_response_errors :
  forall (decoder : ClientDecoder) (client : ModbusTcpClient)
         (requested : Z) (style state : string),
    (List.length (fst (socket_recv 1024 client)) <= 7)%nat ->
    decode [] = no_attributes ->
    fst (get_pressure client) = Raise (ValueError "Invalid response message")
    /\ fst (set_pressure requested style client) = Raise (AttributeError "value")
    /\ fst (is_pressure_launched style client) = Raise (ValueError "Invalid response message")
    /\ fst (launch_pressure state style client) = Raise (AttributeError "value").
Proof.
  intros decoder client requested style state Hlen Hnone.
  pose proof (decoded_response_short client Hlen) as Hd. rewrite Hnone in Hd.
  rewrite (proj1 (get_pressure_run client)), set_pressure_result,
    (proj1 (is_pressure_launched_run style client)),
    (proj1 (launch_pressure_run state style client)), Hd.
  repeat split.
Qed.

Lemma short_response_errors_witness :
  fst (@set_pressure reference_decoder 100 "Positive"
         (mk_client [] [[x00; x00; x00; x00; x00; x06; x01]]))
  = Raise (AttributeError "value").
Proof.
  apply (short_response_errors reference_decoder
           (mk_client [] [[x00; x00; x00; x00; x00; x06; x01]]) 100 "Positive" "ON");
    [vm_compute; lia | reflexivity].
Defined.

(** ** Edge cases of the readings *)

(** X7. [get_pressure] on an empty register list raises [IndexError];
    on a first register above [0xFFFF] it raises the range [ValueError]
    of the signed conversion.  It never raises [AttributeError], and a
    value it returns is at most [0x7FFF]. *)
Theorem get_pressure_edge_cases :
  forall (decoder : ClientDecoder) (client : ModbusTcpClient),
    (attr_registers (decoded_response client) = Some [] ->
     fst (get_pressure client) = Raise (IndexError "list index out of range"))
    /\ (forall r rest,
        attr_registers (decoded_response client) = Some (r :: rest) ->
        r > 0xFFFF ->
        fst (get_pressure client)
        = Raise (ValueError "Value exceeds 16-bit unsigned integer range"))
    /\ (forall v, fst (get_pressure client) = Ok v -> v <= 0x7FFF)
    /\ (forall msg, fst (get_pressure client) <> Raise (AttributeError msg)).
Proof.
  intros decoder client.
  rewrite (proj1 (get_pressure_run client)). unfold read_register0.
  split; [intros ->; reflexivity|].
  split.
  { intros r rest -> Hr. simpl. unfold unsigned_to_signed_16bit.
    destruct (Z.gtb_spec r 0xFFFF); [reflexivity | lia]. }
  destruct (attr_registers (decoded_response client)) as [[|r rest]|]; simpl;
    (split; [intros v Hv | intros msg Hm]); try discriminate.
  - unfold unsigned_to_signed_16bit in Hv.
    destruct (Z.gtb_spec r 0xFFFF); [discriminate|].
    injection Hv as <-. destruct (Z.gtb_spec r 0x7FFF); lia.
  - unfold unsigned_to_signed_16bit in Hm. destruct (r >? 0xFFFF); discriminate.
Qed.

Lemma get_pressure_edge_cases_witness :
  fst (@get_pressure reference_decoder
         (mk_client [] [[x00; x00; x00; x00; x00; x03; x01; x03; x00]]))
  = Raise (IndexError "list index out of range").
Proof.
  apply (get_pressure_edge_cases reference_decoder
           (mk_client [] [[x00; x00; x00; x00; x00; x03; x01; x03; x00]])).
  reflexivity.
Defined.

(** X8. [set_pressure] returns the signed reading of the value the
    response carries, not the clamped request: any signed 16-bit
    integer comes back when the response holds its residue, also one
    outside the legal range of the style. *)
Theorem set_pressure_returns_response_value :
  forall (decoder : ClientDecoder) (client : ModbusTcpClient)
         (requested : Z) (style : string) (p : Z),
    -0x8000 <= p <= 0x7FFF ->
    attr_value (decoded_response client) = Some (p mod 0x10000) ->
    fst (set_pressure requested style client) = Ok p.
Proof.
  intros decoder client requested style p Hp Hv.
  rewrite set_pressure_result. unfold read_value_signed. rewrite Hv.
  apply signed_of_mod. exact Hp.
Qed.

Lemma set_pressure_returns_response_value_witness :
  fst (@set_pressure reference_decoder 100 "Positive"
         (mk_client [] [[x00; x00; x00; x00; x00; x06; x01; x06; x03; x06; x03; xe8]]))
  = Ok 1000.
Proof.
  apply (set_pressure_returns_response_value reference_decoder
           (mk_client [] [[x00; x00; x00; x00; x00; x06; x01; x06; x03; x06; x03; xe8]])
           100 "Positive" 1000);
    [lia | reflexivity].
Defined.

(** X9. [set_pressure] and [launch_pressure] read the [value] attribute
    without a [hasattr] test: an object without it makes both raise
    [AttributeError].  With a value [v], [launch_pressure] returns [v]
    as it is, with neither range check nor signed conversion, and
    [set_pressure] returns the same [v] exactly when [v <= 0x7FFF]. *)
Theorem value_readings :
  forall (decoder : ClientDecoder) (client : ModbusTcpClient)
         (requested : Z) (style state : string),
    (attr_value (decoded_response client) = None ->
     fst (set_pressure requested style client) = Raise (AttributeError "value")
     /\ fst (launch_pressure state style client) = Raise (AttributeError "value"))
    /\ (forall v,
        attr_value (decoded_response client) = Some v ->
        fst (launch_pressure state style client) = Ok v
        /\ (fst (set_pressure requested style client) = Ok v <-> v <= 0x7FFF)).
Proof.
  intros decoder client requested style state.
  rewrite set_pressure_result, (proj1 (launch_pressure_run state style client)).
  unfold read_value_signed, read_value.
  split; [intros ->; split; reflexivity|].
  intros v ->. split; [reflexivity|].
  unfold unsigned_to_signed_16bit.
  change 0xFFFF with 65535. change 0x7FFF with 32767. change 0x10000 with 65536.
  destruct (Z.gtb_spec v 65535) as [Hhi|Hhi]; [split; [discriminate | lia]|].
  destruct (Z.gtb_spec v 32767) as [Hlo|Hlo]; split; intros Hv;
    try lia; try reflexivity.
  injection Hv as Hv'. lia.
Qed.

Lemma value_readings_witness :
  let client :=
    mk_client [] [[x00; x00; x00; x00; x00; x03; x01; x86; x02]] in
  attr_value (@decoded_response reference_decoder client) = None
  /\ fst (@launch_pressure reference_decoder "ON" "Positive" client)
     = Raise (AttributeError "value").
Proof.
  split; [reflexivity|].
  apply (proj1 (value_readings reference_decoder
                  (mk_client [] [[x00; x00; x00; x00; x00; x03; x01; x86; x02]])
                  0 "Positive" "ON")).
  reflexivity.
Defined.

(** ** One write and one read per operation *)

Section Exchange.

Context {decoder : ClientDecoder}.

Lemma bind_send_request_incoming {A : Type} (request : bytes) (k : message -> M A)
    (f : message -> result A) (client : ModbusTcpClient) :
  (forall m c, k m c = (f m, c)) ->
  incoming (snd (bind (send_request request) k client))
  = incoming (snd (socket_recv 1024 client)).
Proof.
  intros Hk. unfold bind, send_request, socket_recv, socket_send.
  destruct client as [log [|chunk queue]]; simpl; rewrite Hk; reflexivity.
Qed.

Lemma get_pressure_incoming (client : ModbusTcpClient) :
  incoming (snd (get_pressure client)) = incoming (snd (socket_recv 1024 client)).
Proof.
  unfold get_pressure.
  apply (bind_send_request_incoming _ _ read_register0).
  intros m c. unfold read_register0.
  destruct (attr_registers m) as [[|r rs]|]; reflexivity.
Qed.

Lemma set_pressure_incoming (requested : Z) (style : string) (client : ModbusTcpClient) :
  incoming (snd (set_pressure requested style client))
  = incoming (snd (socket_recv 1024 client)).
Proof.
  destruct (value_bytes (clamped style requested)) as [hi [lo [Ehi [Elo _]]]].
  unfold set_pressure, clamped in *.
  destruct (String.eqb style "Positive");
    rewrite max_min_clamp by lia;
    cbv zeta;
    erewrite bytes_of_pdu by (first [exact Ehi | exact Elo | reflexivity]);
    apply (bind_send_request_incoming _ _ read_value_signed);
    intros m c; unfold read_value_signed; destruct (attr_value m); reflexivity.
Qed.

Lemma is_pressure_launched_incoming (style : string) (client : ModbusTcpClient) :
  incoming (snd (is_pressure_launched style client))
  = incoming (snd (socket_recv 1024 client)).
Proof.
  unfold is_pressure_launched.
  destruct (String.eqb style "Positive");
    apply (bind_send_request_incoming _ _ read_bit0);
    intros m c; unfold read_bit0; destruct (attr_bits m) as [[|b bs]|]; reflexivity.
Qed.

Lemma launch_pressure_incoming (state style : string) (client : ModbusTcpClient) :
  incoming (snd (launch_pressure state style client))
  = incoming (snd (socket_recv 1024 client)).
Proof.
  unfold launch_pressure.
  destruct (String.eqb style "Positive"); destruct (String.eqb state "ON");
    apply (bind_send_request_incoming _ _ read_value);
    intros m c; unfold read_value; destruct (attr_value m); reflexivity.
Qed.

End Exchange.

Lemma socket_recv_whole (n : nat) (client : ModbusTcpClient) (chunk : bytes)
    (rest : list bytes) :
  incoming client = chunk :: rest ->
  (List.length chunk <= n)%nat ->
  incoming (snd (socket_recv n client)) = rest.
Proof.
  intros Hq Hlen. unfold socket_recv. rewrite Hq. simpl.
  rewrite skipn_all2 by exact Hlen. reflexivity.
Qed.

Lemma socket_recv_leftover (n : nat) (client : ModbusTcpClient) (chunk : bytes)
    (rest : list bytes) :
  incoming client = chunk :: rest ->
  (n < List.length chunk)%nat ->
  incoming (snd (socket_recv n client)) = skipn n chunk :: rest.
Proof.
  intros Hq Hlen. unfold socket_recv. rewrite Hq. simpl.
  destruct (skipn n chunk) eqn:E; [|reflexivity].
  assert (List.length (skipn n chunk) = 0%nat) as H0 by (rewrite E; reflexivity).
  rewrite length_skipn in H0. lia.
Qed.

(** X10. Every operation, whether it returns or raises, takes exactly
    one [recv(1024)] from the socket: a queued chunk of at most 1024
    bytes is consumed whole, and of a longer one the bytes past the
    first 1024 stay at the head of the queue, where the next operation
    will read them as its response. *)
Theorem operations_take_one_recv :
  forall (decoder : ClientDecoder) (client : ModbusTcpClient)
         (requested : Z) (style state : string) (chunk : bytes) (rest : list bytes),
    incoming client = chunk :: rest ->
    let after := if (List.length chunk <=? 1024)%nat then rest
                 else skipn 1024 chunk :: rest in
    incoming (snd (get_pressure client)) = after
    /\ incoming (snd (set_pressure requested style client)) = after
    /\ incoming (snd (is_pressure_launched style client)) = after
    /\ incoming (snd (launch_pressure state style client)) = after.
Proof.
  intros decoder client requested style state chunk rest Hq after.
  rewrite get_pressure_incoming, set_pressure_incoming,
    is_pressure_launched_incoming, launch_pressure_incoming.
  assert (H : incoming (snd (socket_recv 1024 client)) = after).
  { unfold after. destruct (Nat.leb_spec (List.length chunk) 1024).
    - apply (socket_recv_whole _ _ chunk); assumption.
    - apply socket_recv_leftover; assumption. }
  rewrite H. repeat split.
Qed.

Lemma operations_take_one_recv_witness :
  incoming (snd (@get_pressure reference_decoder
                   (mk_client [] [[x00; x00; x00; x00; x00; x03; x01; x83; x02];
                                  [x00; x00; x00; x00; x00; x03; x01; x03; x02; x00; x64]])))
  = [[x00; x00; x00; x00; x00; x03; x01; x03; x02; x00; x64]].
Proof.
  apply (operations_take_one_recv reference_decoder
           (mk_client [] [[x00; x00; x00; x00; x00; x03; x01; x83; x02];
                          [x00; x00; x00; x00; x00; x03; x01; x03; x02; x00; x64]])
           0 "Positive" "ON"
           [x00; x00; x00; x00; x00; x03; x01; x83; x02]
           [[x00; x00; x00; x00; x00; x03; x01; x03; x02; x00; x64]]).
  reflexivity.
Defined.

(** ** Sixteen-bit readings *)

(** X14. When the decoded register (for [get_pressure]) or value (for
    [set_pressure]) is a 16-bit quantity, the range check of the signed
    conversion cannot fire: the operation returns, and what it returns
    is the signed 16-bit integer with that residue. *)
Theorem sixteen_bit_readings_return :
  forall (decoder : ClientDecoder) (client : ModbusTcpClient)
         (requested : Z) (style : string) (raw : Z),
    0 <= raw <= 0xFFFF ->
    (forall rest,
        attr_registers (decoded_response client) = Some (raw :: rest) ->
        exists v, fst (get_pressure client) = Ok v
                  /\ -0x8000 <= v <= 0x7FFF /\ v mod 0x10000 = raw)
    /\ (attr_value (decoded_response client) = Some raw ->
        exists v, fst (set_pressure requested style client) = Ok v
                  /\ -0x8000 <= v <= 0x7FFF /\ v mod 0x10000 = raw).
Proof.
  intros decoder client requested style raw Hraw.
  assert (Hconv : exists v, unsigned_to_signed_16bit raw = Ok v
                            /\ -0x8000 <= v <= 0x7FFF /\ v mod 0x10000 = raw).
  { unfold unsigned_to_signed_16bit.
    destruct (Z.gtb_spec raw 0xFFFF); [lia|].
    destruct (Z.gtb_spec raw 0x7FFF); eexists; (split; [reflexivity|]); split; try lia.
    - replace (raw - 0x10000) with (raw + (-1) * 0x10000) by lia.
      rewrite Z.mod_add by lia. apply Z.mod_small. lia.
    - apply Z.mod_small. lia. }
  split.
  - intros rest Hr. rewrite (proj1 (get_pressure_run client)).
    unfold read_register0. rewrite Hr. exact Hconv.
  - intros Hv. rewrite set_pressure_result.
    unfold read_value_signed. rewrite Hv. exact Hconv.
Qed.

Lemma sixteen_bit_readings_return_witness :
  let client :=
    mk_client [] [[x00; x00; x00; x00; x00; x05; x01; x03; x02; xff; xb0]] in
  exists v, fst (@get_pressure reference_decoder client) = Ok v
            /\ -0x8000 <= v <= 0x7FFF /\ v mod 0x10000 = 0xFFB0.
Proof.
  apply (proj1 (sixteen_bit_readings_return reference_decoder
                  (mk_client [] [[x00; x00; x00; x00; x00; x05; x01; x03; x02; xff; xb0]])
                  0 "Positive" 0xFFB0 ltac:(lia)) []).
  reflexivity.
Defined.

(** ** The demonstration script *)

Section Demo.

Context {decoder : ClientDecoder}.

Lemma set_pressure_100_sent (client : ModbusTcpClient) :
  sent (snd (set_pressure 100 "Positive" client))
  = sent client ++ [[x00; x00; x00; x00; x00; x06; x01; x06; x03; x06; x00; x64]].
Proof.
  unfold set_pressure.
  refine (proj2 (bind_send_request_pure _ _ read_value_signed client _)).
  intros m c. unfold read_value_signed. destruct (attr_value m); reflexivity.
Qed.

Lemma set_pressure_minus_30_sent (client : ModbusTcpClient) :
  sent (snd (set_pressure (-30) "Negative" client))
  = sent client ++ [[x00; x00; x00; x00; x00; x06; x01; x06; x03; x07; xff; xe2]].
Proof.
  unfold set_pressure.
  refine (proj2 (bind_send_request_pure _ _ read_value_signed client _)).
  intros m c. unfold read_value_signed. destruct (attr_value m); reflexivity.
Qed.

Lemma call_run {A : Type} (op : M A) (p : process) :
  call op p
  = (fst (op (proc_client p)),
     mk_process (snd (op (proc_client p))) (proc_stdout p) (proc_closed p)).
Proof. unfold call. destruct (op (proc_client p)). reflexivity. Qed.

(** The script, call by call: every operation runs on the client the
    previous one left, and the first [Raise] is the script's. *)
Lemma demo_main_trace (p : process) :
  let r1 := get_pressure (proc_client p) in
  let r2 := set_pressure 100 "Positive" (snd r1) in
  let r3 := set_pressure (-30) "Negative" (snd r2) in
  let r4 := launch_pressure "OFF" "Negative" (snd r3) in
  let r5 := is_pressure_launched "Positive" (snd r4) in
  let out := proc_stdout p in
  demo_main p
  = match fst r1 with
    | Raise e => (Raise e, mk_process (snd r1) out (proc_closed p))
    | Ok v1 =>
    match fst r2 with
    | Raise e =>
        (Raise e,
         mk_process (snd r2) (out ++ [formatted "当前压力为 " v1 " kPa"]) (proc_closed p))
    | Ok v2 =>
    match fst r3 with
    | Raise e =>
        (Raise e,
         mk_process (snd r3)
           (out ++ [formatted "当前压力为 " v1 " kPa";
                    formatted "设置正压为 " v2 " kPa"])
           (proc_closed p))
    | Ok v3 =>
    match fst r4 with
    | Raise e =>
        (Raise e,
         mk_process (snd r4)
           (out ++ [formatted "当前压力为 " v1 " kPa";
                    formatted "设置正压为 " v2 " kPa";
                    formatted "设置负压为 " v3 " kPa"])
           (proc_closed p))
    | Ok _ =>
    match fst r5 with
    | Raise e =>
        (Raise e,
         mk_process (snd r5)
           (out ++ [formatted "当前压力为 " v1 " kPa";
                    formatted "设置正压为 " v2 " kPa";
                    formatted "设置负压为 " v3 " kPa"])
           (proc_closed p))
    | Ok b =>
        (Ok tt,
         mk_process (snd r5)
           (out ++ [formatted "当前压力为 " v1 " kPa";
                    formatted "设置正压为 " v2 " kPa";
                    formatted "设置负压为 " v3 " kPa";
                    text (if b then "正压状态为 ON" else "正压状态为 OFF")])
           true)
    end end end end end.
Proof.
  cbv zeta. destruct p as [c0 out closed].
  cbn [proc_client proc_stdout proc_closed].
  unfold demo_main, io_bind, print, close.
  rewrite (call_run get_pressure). cbn [proc_client proc_stdout proc_closed].
  destruct (get_pressure c0) as [[v1|e1] c1]; cbn [fst snd]; [|reflexivity].
  rewrite (call_run (set_pressure 100 "Positive")).
  cbn [proc_client proc_stdout proc_closed].
  destruct (set_pressure 100 "Positive" c1) as [[v2|e2] c2]; cbn [fst snd];
    [|reflexivity].
  rewrite (call_run (set_pressure (-30) "Negative")).
  cbn [proc_client proc_stdout proc_closed].
  destruct (set_pressure (-30) "Negative" c2) as [[v3|e3] c3]; cbn [fst snd];
    [|rewrite <- !app_assoc; reflexivity].
  rewrite (call_run (launch_pressure "OFF" "Negative")).
  cbn [proc_client proc_stdout proc_closed].
  destruct (launch_pressure "OFF" "Negative" c3) as [[v4|e4] c4]; cbn [fst snd];
    [|rewrite <- !app_assoc; reflexivity].
  rewrite (call_run (is_pressure_launched "Positive")).
  cbn [proc_client proc_stdout proc_closed].
  destruct (is_pressure_launched "Positive" c4) as [[b|e5] c5]; cbn [fst snd];
    rewrite <- !app_assoc; [destruct b|]; reflexivity.
Qed.

End Demo.

(** Rewrites what the calls of the script have written, call by call. *)
Ltac demo_sent :=
  repeat first
    [ rewrite (proj2 (is_pressure_launched_run _ _))
    | rewrite (proj2 (launch_pressure_run _ _ _))
    | rewrite set_pressure_minus_30_sent
    | rewrite set_pressure_100_sent
    | rewrite (proj2 (get_pressure_run _)) ];
  rewrite <- ?app_assoc; reflexivity.

(** X11. The script stops at the first operation that raises: it ends
    with that operation's exception, and it has written the requests
    up to and including that operation's and none after.  The requests
    are, in order: read the pressure, set 100 ['Positive'], set -30
    ['Negative'], launch ['OFF'] ['Negative'], query ['Positive'];
    when the five operations return the script ends normally with all
    five written. *)
Theorem demo_main_stops_at_first_failure :
  forall (decoder : ClientDecoder) (p : process) (e : exception),
    let r1 := get_pressure (proc_client p) in
    let r2 := set_pressure 100 "Positive" (snd r1) in
    let r3 := set_pressure (-30) "Negative" (snd r2) in
    let r4 := launch_pressure "OFF" "Negative" (snd r3) in
    let r5 := is_pressure_launched "Positive" (snd r4) in
    let frames :=
      [[x00; x00; x00; x00; x00; x06; x01; x03; x03; x02; x00; x02];
       [x00; x00; x00; x00; x00; x06; x01; x06; x03; x06; x00; x64];
       [x00; x00; x00; x00; x00; x06; x01; x06; x03; x07; xff; xe2];
       [x00; x00; x00; x00; x00; x06; x01; x05; x01; x01; x00; x00];
       [x00; x00; x00; x00; x00; x06; x01; x02; x02; x00; x00; x01]] in
    let written := sent (proc_client (snd (demo_main p))) in
    (fst r1 = Raise e ->
     fst (demo_main p) = Raise e
     /\ written = sent (proc_client p) ++ firstn 1 frames)
    /\ (forall v1,
        fst r1 = Ok v1 -> fst r2 = Raise e ->
        fst (demo_main p) = Raise e
        /\ written = sent (proc_client p) ++ firstn 2 frames)
    /\ (forall v1 v2,
        fst r1 = Ok v1 -> fst r2 = Ok v2 -> fst r3 = Raise e ->
        fst (demo_main p) = Raise e
        /\ written = sent (proc_client p) ++ firstn 3 frames)
    /\ (forall v1 v2 v3,
        fst r1 = Ok v1 -> fst r2 = Ok v2 -> fst r3 = Ok v3 -> fst r4 = Raise e ->
        fst (demo_main p) = Raise e
        /\ written = sent (proc_client p) ++ firstn 4 frames)
    /\ (forall v1 v2 v3 v4,
        fst r1 = Ok v1 -> fst r2 = Ok v2 -> fst r3 = Ok v3 -> fst r4 = Ok v4 ->
        fst r5 = Raise e ->
        fst (demo_main p) = Raise e
        /\ written = sent (proc_client p) ++ frames)
    /\ (forall v1 v2 v3 v4 b,
        fst r1 = Ok v1 -> fst r2 = Ok v2 -> fst r3 = Ok v3 -> fst r4 = Ok v4 ->
        fst r5 = Ok b ->
        fst (demo_main p) = Ok tt
        /\ written = sent (proc_client p) ++ frames).
Proof.
  intros decoder p e r1 r2 r3 r4 r5 frames written.
  pose proof (demo_main_trace p) as T. cbv zeta in T.
  fold r1 r2 r3 r4 r5 in T. subst written. rewrite T. clear T.
  repeat split; intros;
    repeat match goal with
           | H : fst _ = _ |- _ => rewrite H; clear H
           end;
    cbn [fst snd proc_client firstn]; try reflexivity;
    subst r1 r2 r3 r4 r5; demo_sent.
Qed.

Lemma demo_main_stops_at_first_failure_witness :
  let p :=
    mk_process
      (mk_client []
         [[x00; x00; x00; x00; x00; x07; x01; x03; x04; xff; xce; x00; x00];
          [x00; x00; x00; x00; x00; x03; x01; x86; x02];
          [x00; x00; x00; x00; x00; x06; x01; x06; x03; x07; xff; xe2]])
      [] false in
  fst (@demo_main reference_decoder p) = Raise (AttributeError "value")
  /\ sent (proc_client (snd (@demo_main reference_decoder p)))
     = [[x00; x00; x00; x00; x00; x06; x01; x03; x03; x02; x00; x02];
        [x00; x00; x00; x00; x00; x06; x01; x06; x03; x06; x00; x64]].
Proof.
  intros p.
  apply (proj1 (proj2 (demo_main_stops_at_first_failure reference_decoder p
                         (AttributeError "value"))) (-50));
    reflexivity.
Defined.

(** X12. The script reaches [client.close()] exactly when its five
    operations return.  When one of them raises, the connection is left
    as it was, not closed, and only the lines of the operations before
    it have been printed: none when [get_pressure] raises, one, two and
    three when the first [set_pressure], the second [set_pressure] and
    [launch_pressure] do, and still three when [is_pressure_launched]
    does. *)
Theorem demo_main_closes_iff_all_return :
  forall (decoder : ClientDecoder) (p : process),
    let r1 := get_pressure (proc_client p) in
    let r2 := set_pressure 100 "Positive" (snd r1) in
    let r3 := set_pressure (-30) "Negative" (snd r2) in
    let r4 := launch_pressure "OFF" "Negative" (snd r3) in
    let r5 := is_pressure_launched "Positive" (snd r4) in
    let after := snd (demo_main p) in
    (proc_closed p = false ->
     (proc_closed after = true
      <-> exists v1 v2 v3 v4 b,
          fst r1 = Ok v1 /\ fst r2 = Ok v2 /\ fst r3 = Ok v3 /\ fst r4 = Ok v4
          /\ fst r5 = Ok b))
    /\ (forall e,
        fst r1 = Raise e ->
        proc_closed after = proc_closed p /\ proc_stdout after = proc_stdout p)
    /\ (forall v1 e,
        fst r1 = Ok v1 -> fst r2 = Raise e ->
        proc_closed after = proc_closed p
        /\ proc_stdout after = proc_stdout p ++ [formatted "当前压力为 " v1 " kPa"])
    /\ (forall v1 v2 e,
        fst r1 = Ok v1 -> fst r2 = Ok v2 -> fst r3 = Raise e ->
        proc_closed after = proc_closed p
        /\ proc_stdout after
           = proc_stdout p ++ [formatted "当前压力为 " v1 " kPa";
                               formatted "设置正压为 " v2 " kPa"])
    /\ (forall v1 v2 v3 v4 e,
        fst r1 = Ok v1 -> fst r2 = Ok v2 -> fst r3 = Ok v3 ->
        fst r4 = Raise e \/ (fst r4 = Ok v4 /\ fst r5 = Raise e) ->
        proc_closed after = proc_closed p
        /\ proc_stdout after
           = proc_stdout p ++ [formatted "当前压力为 " v1 " kPa";
                               formatted "设置正压为 " v2 " kPa";
                               formatted "设置负压为 " v3 " kPa"]).
Proof.
  intros decoder p r1 r2 r3 r4 r5 after.
  pose proof (demo_main_trace p) as T. cbv zeta in T.
  fold r1 r2 r3 r4 r5 in T. subst after. rewrite T. clear T.
  split; [|repeat split; intros;
           repeat match goal with
                  | H : _ \/ _ |- _ => destruct H as [H|[? H]]
                  | H : fst _ = _ |- _ => rewrite H; clear H
                  end; reflexivity].
  intros Hopen. split.
  - destruct (fst r1) as [v1|e1]; [|cbn; congruence].
    destruct (fst r2) as [v2|e2]; [|cbn; congruence].
    destruct (fst r3) as [v3|e3]; [|cbn; congruence].
    destruct (fst r4) as [v4|e4]; [|cbn; congruence].
    destruct (fst r5) as [b|e5]; [|cbn; congruence].
    intros _. exists v1, v2, v3, v4, b. repeat split.
  - intros [v1 [v2 [v3 [v4 [b [H1 [H2 [H3 [H4 H5]]]]]]]]].
    rewrite H1, H2, H3, H4, H5. reflexivity.
Qed.

Lemma demo_main_closes_iff_all_return_witness :
  let p :=
    mk_process (mk_client [] [[x00; x00; x00; x00; x00; x03; x01; x83; x02]]) [] false in
  fst (@get_pressure reference_decoder (proc_client p))
  = Raise (IndexError "list index out of range")
  /\ proc_closed (snd (@demo_main reference_decoder p)) = false
  /\ proc_stdout (snd (@demo_main reference_decoder p)) = [].
Proof.
  intros p. split; [reflexivity|].
  apply (proj1 (proj2 (demo_main_closes_iff_all_return reference_decoder p))
           (IndexError "list index out of range")).
  reflexivity.
Defined.

(** X13. When the five operations of the script return, it prints the
    pressure read, then the two objects [set_pressure] returned (what
    the responses carried, not the 100 and -30 it asked for), then ON
    or OFF for the bit read, and closes; what [launch_pressure] returned
    is dropped. *)
Theorem demo_main_output :
  forall (decoder : ClientDecoder) (p : process) (v1 v2 v3 v4 : Z) (b : bool),
    let c1 := snd (get_pressure (proc_client p)) in
    let c2 := snd (set_pressure 100 "Positive" c1) in
    let c3 := snd (set_pressure (-30) "Negative" c2) in
    let c4 := snd (launch_pressure "OFF" "Negative" c3) in
    let c5 := snd (is_pressure_launched "Positive" c4) in
    fst (get_pressure (proc_client p)) = Ok v1 ->
    fst (set_pressure 100 "Positive" c1) = Ok v2 ->
    fst (set_pressure (-30) "Negative" c2) = Ok v3 ->
    fst (launch_pressure "OFF" "Negative" c3) = Ok v4 ->
    fst (is_pressure_launched "Positive" c4) = Ok b ->
    demo_main p
    = (Ok tt,
       mk_process c5
         (proc_stdout p
          ++ [formatted "当前压力为 " v1 " kPa";
              formatted "设置正压为 " v2 " kPa";
              formatted "设置负压为 " v3 " kPa";
              text (if b then "正压状态为 ON" else "正压状态为 OFF")])
         true).
Proof.
  intros decoder p v1 v2 v3 v4 b c1 c2 c3 c4 c5 H1 H2 H3 H4 H5.
  pose proof (demo_main_trace p) as T. cbv zeta in T.
  fold c1 in T. fold c2 in T. fold c3 in T. fold c4 in T. fold c5 in T.
  rewrite T, H1, H2, H3, H4, H5. reflexivity.
Qed.

Lemma demo_main_output_witness :
  let p :=
    mk_process
      (mk_client []
         [[x00; x00; x00; x00; x00; x07; x01; x03; x04; xff; xce; x00; x00];
          [x00; x00; x00; x00; x00; x06; x01; x06; x03; x06; x00; x5a];
          [x00; x00; x00; x00; x00; x06; x01; x06; x03; x07; xff; xe2];
          [x00; x00; x00; x00; x00; x06; x01; x05; x01; x01; x00; x00];
          [x00; x00; x00; x00; x00; x04; x01; x02; x01; x01]])
      [] false in
  fst (@demo_main reference_decoder p) = Ok tt
  /\ proc_stdout (snd (@demo_main reference_decoder p))
     = [formatted "当前压力为 " (-50) " kPa"; formatted "设置正压为 " 90 " kPa";
        formatted "设置负压为 " (-30) " kPa"; text "正压状态为 ON"].
Proof.
  intros p.
  pose proof (demo_main_output reference_decoder p (-50) 90 (-30) 0 true
                eq_refl eq_refl eq_refl eq_refl eq_refl) as H.
  rewrite H. split; reflexivity.
Defined.
